(** * PortableLauncher: a shallow embedding of [launcher.py]

    The module offers a family of launcher classes.  An instance is built
    from a label and a command line; calling it announces the label and
    then starts the command through one mechanism of the [os] module.

    Python strings are modelled as [string]; one [ascii] stands for one
    code point below U+0100.  Everything the interpreter does to the outside
    world is recorded as an event, and what the operating system answers is
    supplied by an oracle, so that every definition below computes. *)

From Stdlib Require Import String Ascii List ZArith Bool Lia.
Import ListNotations.
Local Open Scope string_scope.

(** ** Python string methods used by the module *)

Module PyStr.

(** [str.isspace] on one code point below U+0100: the characters that
    [str.lstrip()] and [str.split()] treat as whitespace. *)
Definition isspace (c : ascii) : bool :=
  let n := nat_of_ascii c in
  (((9 <=? n) && (n <=? 13)) || ((28 <=? n) && (n <=? 32))
   || (n =? 133) || (n =? 160))%nat.

(** [s.lstrip()] *)
Fixpoint lstrip (s : string) : string :=
  match s with
  | EmptyString => EmptyString
  | String c s' => if isspace c then lstrip s' else s
  end.

(** [s.split(sep)] for a separator of one character.  The result is never
    empty: [''.split(' ')] is [['']]. *)
Fixpoint split (sep : ascii) (s : string) : list string :=
  match s with
  | EmptyString => [EmptyString]
  | String c s' =>
      if Ascii.eqb c sep then EmptyString :: split sep s'
      else match split sep s' with
           | tok :: rest => String c tok :: rest
           | [] => [String c EmptyString]
           end
  end.

(** [s.split()]: cut at runs of whitespace and drop empty pieces.  [word]
    is the piece being read. *)
Fixpoint split_ws_from (word s : string) : list string :=
  match s with
  | EmptyString => if word =? "" then [] else [word]
  | String c s' =>
      if isspace c
      then (if word =? "" then split_ws_from "" s'
            else word :: split_ws_from "" s')
      else split_ws_from (word ++ String c "") s'
  end.

Definition split_ws (s : string) : list string := split_ws_from "" s.

(** [sep.join(parts)] *)
Definition join (sep : string) (parts : list string) : string :=
  String.concat sep parts.

(** [s[:n]] *)
Definition slice_to (n : nat) (s : string) : string := substring 0 n s.

(** [s.startswith(p)] *)
Definition startswith (s p : string) : bool := prefix p s.

(** [s * n] *)
Fixpoint times (s : string) (n : nat) : string :=
  match n with
  | O => ""
  | S n' => s ++ times s n'
  end.

(** [s] without the occurrences of [c]; used to state what a join without
    separator leaves of a line. *)
Fixpoint remove (c : ascii) (s : string) : string :=
  match s with
  | EmptyString => EmptyString
  | String a s' => if Ascii.eqb a c then remove c s' else String a (remove c s')
  end.

(** [c in s] *)
Fixpoint contains (c : ascii) (s : string) : bool :=
  match s with
  | EmptyString => false
  | String a s' => Ascii.eqb a c || contains c s'
  end.

(** Every character of [s] is whitespace; true of the empty string. *)
Fixpoint blank (s : string) : bool :=
  match s with
  | EmptyString => true
  | String c s' => isspace c && blank s'
  end.

(** No character of [s] is whitespace. *)
Fixpoint spaceless (s : string) : bool :=
  match s with
  | EmptyString => true
  | String c s' => negb (isspace c) && spaceless s'
  end.

End PyStr.

(** ** Exceptions and results *)

Inductive exn : Type :=
| AssertionError (msg : option string)
| AttributeError (name : string)
| IndexError
| TypeError
| OSError (errno : Z).

Inductive result (A : Type) : Type :=
| Ok (a : A)
| Err (e : exn).
Arguments Ok {A} a.
Arguments Err {A} e.

(** [xs[i]] for [i >= 0]: an index out of range raises [IndexError]. *)
Definition getitem {A : Type} (xs : list A) (i : nat) : result A :=
  match nth_error xs i with
  | Some x => Ok x
  | None => Err IndexError
  end.

(** [xs[i:]] *)
Definition slice_from {A : Type} (i : nat) (xs : list A) : list A := skipn i xs.

(** ** The host *)

(** What the interpreter finds on the machine it runs on: [sys.platform],
    [sys.executable], [sys.argv], which names the [os] module offers, and
    the [os.path.normpath] of the platform. *)
Record Host : Type := {
  platform : string;
  executable : string;
  argv : list string;
  os_hasattr : string -> bool;
  normpath : string -> string
}.

(** [sys.platform[:3] == 'win'] *)
Definition is_win (h : Host) : bool := PyStr.slice_to 3 (platform h) =? "win".

(** ** The command normalizer *)

(** [fixWindowsPath(cmdline)] *)
Definition fixWindowsPath (h : Host) (cmdline : string) : result string :=
  let splitLine := PyStr.split " "%char (PyStr.lstrip cmdline) in
  match getitem splitLine 0 with
  | Err e => Err e
  | Ok head =>
      let fixedPath := normpath h head in
      Ok (PyStr.join "" ([fixedPath] ++ slice_from 1 splitLine))
  end.

(** ** [posixpath.normpath] *)

Module Posix.

(** The loop of [normpath] over the components; [new_comps] is kept in
    order, [append] adds at the end and [pop] removes the last one. *)
Fixpoint collapse (initial_slashes : nat) (comps new_comps : list string)
  : list string :=
  match comps with
  | [] => new_comps
  | comp :: rest =>
      if (comp =? "") || (comp =? ".")
      then collapse initial_slashes rest new_comps
      else if negb (comp =? "..")
              || ((initial_slashes =? 0)%nat && (length new_comps =? 0)%nat)
              || (negb (length new_comps =? 0)%nat
                  && (last new_comps "" =? ".."))
      then collapse initial_slashes rest (new_comps ++ [comp])
      else collapse initial_slashes rest (removelast new_comps)
  end.

(** Modelled from the spec: [os.path.normpath] belongs to the Python
    runtime, not to this repository.  On a POSIX host it collapses redundant
    separators and resolves [.] and [..] segments lexically; the definition
    follows the runtime's [posixpath.normpath] statement by statement. *)
Definition normpath (path : string) : string :=
  if path =? "" then "."
  else
    let initial_slashes :=
      if PyStr.startswith path "/"
      then if PyStr.startswith path "//" && negb (PyStr.startswith path "///")
           then 2%nat else 1%nat
      else 0%nat in
    let comps := collapse initial_slashes (PyStr.split "/"%char path) [] in
    let path := PyStr.join "/" comps in
    let path := PyStr.times "/" initial_slashes ++ path in
    if path =? "" then "." else path.

End Posix.

(** ** Effects *)

(** [os.P_NOWAIT] and [os.P_DETACH], the modes of the spawn family that the
    module mentions. *)
Inductive spawn_mode : Type := P_NOWAIT | P_DETACH.

(** The calls into the [os] module that start or replace a process. *)
Inductive os_call : Type :=
| os_system (command : string)
| os_popen (command : string)
| os_fork
| os_execvp (file : string) (args : list string)
| os_startfile (path : string)
| os_spawnv (mode : spawn_mode) (path : string) (args : list string).

(** What a run of the program does to the outside world, in order. *)
Inductive event : Type :=
| Print (text : string)
| Os (c : os_call).

(** The answer of the operating system to a call: a value ([os.fork] gives
    0 in the child and the child's pid in the parent) or a failure, which
    Python raises as [OSError]. *)
Inductive os_reply : Type :=
| Returned (v : Z)
| Failed (errno : Z).

(** The operating system as the program sees it: the answer to the latest
    call, given every call made so far (the latest one last). *)
Definition oracle : Type := list os_call -> os_reply.

(** How the execution of a piece of code ends: it returns a value, it
    raises, or the process image is replaced ([os.execvp] succeeded) and no
    statement of the program runs any more. *)
Inductive outcome (A : Type) : Type :=
| Done (a : A)
| Raised (e : exn)
| Replaced.
Arguments Done {A} a.
Arguments Raised {A} e.
Arguments Replaced {A}.

(** The launcher classes of the module. *)
Inductive cls : Type :=
| LaunchMode | System | Popen | Fork | Start | StartArgs | Spawn | TopLevel
| QuietPortableLauncher.

(** The module-level names bound when the module is imported.  The base of
    [QuietPortableLauncher] is the value [PortableLauncher] had when the class
    statement ran. *)
Record Globals : Type := {
  pyfile : string;
  pypath : string;
  PortableLauncher : cls;
  QuietPortableLauncher_base : cls
}.

Record State : Type := {
  globals : Globals;
  trace : list event
}.

(** The [os] calls among the events. *)
Fixpoint os_calls (tr : list event) : list os_call :=
  match tr with
  | [] => []
  | Print _ :: tr' => os_calls tr'
  | Os c :: tr' => c :: os_calls tr'
  end.

(** The texts printed among the events. *)
Fixpoint printed (tr : list event) : list string :=
  match tr with
  | [] => []
  | Print t :: tr' => t :: printed tr'
  | Os _ :: tr' => printed tr'
  end.

(** Code of the module: it reads the host and the oracle, and threads the
    state. *)
Definition Py (A : Type) : Type :=
  Host -> oracle -> State -> State * outcome A.

Definition ret {A : Type} (a : A) : Py A := fun _ _ st => (st, Done a).

Definition raise {A : Type} (e : exn) : Py A := fun _ _ st => (st, Raised e).

Definition bind {A B : Type} (m : Py A) (k : A -> Py B) : Py B :=
  fun h o st =>
    match m h o st with
    | (st', Done a) => k a h o st'
    | (st', Raised e) => (st', Raised e)
    | (st', Replaced) => (st', Replaced)
    end.

Declare Scope py_scope.
Delimit Scope py_scope with py.
Notation "x <- m ;; k" := (bind m (fun x => k))
  (at level 61, m at next level, right associativity) : py_scope.
Notation "m ;; k" := (bind m (fun _ => k))
  (at level 61, right associativity) : py_scope.
Local Open Scope py_scope.

Definition lift {A : Type} (r : result A) : Py A :=
  match r with
  | Ok a => ret a
  | Err e => raise e
  end.

Definition ask : Py Host := fun h _ st => (st, Done h).

Definition read_globals : Py Globals := fun _ _ st => (st, Done (globals st)).

Definition emit (e : event) : Py unit :=
  fun _ _ st => ({| globals := globals st; trace := trace st ++ [e] |}, Done tt).

(** [print(text)] *)
Definition print (text : string) : Py unit := emit (Print text).

(** [assert cond] and [assert cond, msg], with assertions enabled as the
    interpreter has them by default. *)
Definition assert (cond : bool) (msg : option string) : Py unit :=
  if cond then ret tt else raise (AssertionError msg).

(** Looking up [os.name]. *)
Definition os_getattr (name : string) : Py unit :=
  h <- ask ;;
  if os_hasattr h name then ret tt else raise (AttributeError name).

(** Making a call that comes back with a value or raises. *)
Definition os_invoke (c : os_call) : Py Z :=
  emit (Os c) ;;
  fun _ o st =>
    match o (os_calls (trace st)) with
    | Returned v => (st, Done v)
    | Failed errno => (st, Raised (OSError errno))
    end.

(** Making a call of the exec family: it raises, or the process image is
    replaced and control never comes back. *)
Definition os_exec {A : Type} (c : os_call) : Py A :=
  emit (Os c) ;;
  fun _ o st =>
    match o (os_calls (trace st)) with
    | Returned _ => (st, Replaced)
    | Failed errno => (st, Raised (OSError errno))
    end.

(** ** The module body *)

(** The top-level statements of the module, in order: [pyfile], [pypath],
    the choice of [PortableLauncher], and the class statement of
    [QuietPortableLauncher]. *)
Definition module_init (h : Host) : Globals :=
  let pyfile := if is_win h then "python.exe" else "python" in
  let pypath := executable h in
  let PortableLauncher := if is_win h then Spawn else Fork in
  {| pyfile := pyfile;
     pypath := pypath;
     PortableLauncher := PortableLauncher;
     QuietPortableLauncher_base := PortableLauncher |}.

(** The state right after [import launcher], with [tr] the events so far. *)
Definition imported (h : Host) (tr : list event) : State :=
  {| globals := module_init h; trace := tr |}.

(** An instance: its class and the two attributes [__init__] sets. *)
Record instance : Type := {
  class_of : cls;
  what : string;
  where_ : string
}.

(** *** Methods *)

(** [LaunchMode.announce] *)
Definition LaunchMode_announce (text : string) : Py unit := print text.

(** [LaunchMode.run], the abstract method, whose body is [pass]. *)
Definition LaunchMode_run (cmdline : string) : Py unit := ret tt.

(** [System.run] *)
Definition System_run (cmdline : string) : Py unit :=
  h <- ask ;;
  cmdline <- lift (fixWindowsPath h cmdline) ;;
  os_getattr "system" ;;
  g <- read_globals ;;
  os_invoke (os_system (pypath g ++ " " ++ cmdline)) ;;
  ret tt.

(** [Popen.run] *)
Definition Popen_run (cmdline : string) : Py unit :=
  h <- ask ;;
  cmdline <- lift (fixWindowsPath h cmdline) ;;
  os_getattr "popen" ;;
  g <- read_globals ;;
  os_invoke (os_popen (pypath g ++ " " ++ cmdline)) ;;
  ret tt.

(** [Fork.run] *)
Definition Fork_run (cmdline : string) : Py unit :=
  h <- ask ;;
  assert (os_hasattr h "fork") None ;;
  let cmdline := PyStr.split_ws cmdline in
  os_getattr "fork" ;;
  pid <- os_invoke os_fork ;;
  if (pid =? 0)%Z
  then os_getattr "execvp" ;;
       g <- read_globals ;;
       os_exec (os_execvp (pypath g) ([pyfile g] ++ cmdline))
  else ret tt.

(** [Start.run] *)
Definition Start_run (cmdline : string) : Py unit :=
  h <- ask ;;
  assert (is_win h) None ;;
  cmdline <- lift (fixWindowsPath h cmdline) ;;
  os_getattr "startfile" ;;
  os_invoke (os_startfile cmdline) ;;
  ret tt.

(** [StartArgs.run] *)
Definition StartArgs_run (cmdline : string) : Py unit :=
  h <- ask ;;
  assert (is_win h) None ;;
  os_getattr "system" ;;
  os_invoke (os_system ("start " ++ cmdline)) ;;
  ret tt.

(** [Spawn.run] *)
Definition Spawn_run (cmdline : string) : Py unit :=
  os_getattr "spawnv" ;;
  os_getattr "P_DETACH" ;;
  g <- read_globals ;;
  os_invoke (os_spawnv P_DETACH (pypath g) [pyfile g; cmdline]) ;;
  ret tt.

(** [TopLevel.run] *)
Definition TopLevel_run (cmdline : string) : Py unit :=
  assert false (Some "Mode not yet implemented.").

(** [QuietPortableLauncher.announce], whose body is [pass]. *)
Definition QuietPortableLauncher_announce (text : string) : Py unit := ret tt.

(** *** Classes and method lookup *)

(** The base class named in each class statement. *)
Definition base_of (g : Globals) (c : cls) : option cls :=
  match c with
  | LaunchMode => None
  | QuietPortableLauncher => Some (QuietPortableLauncher_base g)
  | _ => Some LaunchMode
  end.

(** The method resolution order of a class; no chain of bases in the module
    is longer than three classes. *)
Definition mro (g : Globals) (c : cls) : list cls :=
  c :: match base_of g c with
       | None => []
       | Some b => b :: match base_of g b with
                        | None => []
                        | Some b' => [b']
                        end
       end.

(** The [run] a class statement defines itself. *)
Definition defines_run (c : cls) : option (string -> Py unit) :=
  match c with
  | LaunchMode => Some LaunchMode_run
  | System => Some System_run
  | Popen => Some Popen_run
  | Fork => Some Fork_run
  | Start => Some Start_run
  | StartArgs => Some StartArgs_run
  | Spawn => Some Spawn_run
  | TopLevel => Some TopLevel_run
  | QuietPortableLauncher => None
  end.

(** The [announce] a class statement defines itself. *)
Definition defines_announce (c : cls) : option (string -> Py unit) :=
  match c with
  | LaunchMode => Some LaunchMode_announce
  | QuietPortableLauncher => Some QuietPortableLauncher_announce
  | _ => None
  end.

(** Attribute lookup along the resolution order: the first class that
    defines the method, with the method. *)
Fixpoint resolve {T : Type} (own : cls -> option T) (order : list cls)
  : option (cls * T) :=
  match order with
  | [] => None
  | c :: order' =>
      match own c with
      | Some m => Some (c, m)
      | None => resolve own order'
      end
  end.

(** [self.name(arg)] *)
Definition call_method (own : cls -> option (string -> Py unit))
    (name : string) (self : instance) (arg : string) : Py unit :=
  g <- read_globals ;;
  match resolve own (mro g (class_of self)) with
  | Some (_, method) => method arg
  | None => raise (AttributeError name)
  end.

(** [cls(label, command)]: a class whose [run] is still the abstract one
    cannot be instantiated; otherwise [LaunchMode.__init__] stores the two
    arguments. *)
Definition construct (c : cls) (label command : string) : Py instance :=
  g <- read_globals ;;
  match resolve defines_run (mro g c) with
  | Some (LaunchMode, _) => raise TypeError
  | None => raise TypeError
  | Some _ => ret {| class_of := c; what := label; where_ := command |}
  end.

(** [LaunchMode.__call__], the one definition of [self()] in the module. *)
Definition LaunchMode_call (self : instance) : Py unit :=
  call_method defines_announce "announce" self (what self) ;;
  call_method defines_run "run" self (where_ self).

(** [cls(label, command)()] *)
Definition launch (c : cls) (label command : string) : Py unit :=
  self <- construct c label command ;;
  LaunchMode_call self.

(** [selfTest()] *)
Definition selfTest : Py unit :=
  h <- ask ;;
  fileName <- lift (getitem (argv h) 1) ;;
  print "default mode..." ;;
  g <- read_globals ;;
  launch (PortableLauncher g) fileName fileName ;;
  print "system mode..." ;;
  launch System fileName fileName ;;
  if is_win h
  then print "win mode..." ;;
       launch StartArgs fileName fileName
  else ret tt.

(** *** What a client of the module can do with it *)

Inductive action : Type :=
| Construct (c : cls) (label command : string)
| Invoke (self : instance)
| Launch (c : cls) (label command : string)
| Normalize (cmdline : string)
| SelfTest.

Definition perform (a : action) : Py unit :=
  match a with
  | Construct c label command => construct c label command ;; ret tt
  | Invoke self => LaunchMode_call self
  | Launch c label command => launch c label command
  | Normalize cmdline => h <- ask ;; lift (fixWindowsPath h cmdline) ;; ret tt
  | SelfTest => selfTest
  end.

(** A client that performs the actions one after the other and stops at the
    first one that does not return. *)
Fixpoint perform_all (script : list action) : Py unit :=
  match script with
  | [] => ret tt
  | a :: script' => perform a ;; perform_all script'
  end.

(** ** Sample hosts and oracles *)

Definition offers (names : list string) (name : string) : bool :=
  existsb (String.eqb name) names.

(** A Linux host. *)
Definition linux : Host :=
  {| platform := "linux";
     executable := "/usr/bin/python3";
     argv := ["launcher.py"; "script.py"];
     os_hasattr := offers ["system"; "popen"; "fork"; "execvp"; "spawnv";
                           "P_NOWAIT"];
     normpath := Posix.normpath |}.

(** A WebAssembly host: not Windows, and no way to create a process. *)
Definition wasi : Host :=
  {| platform := "wasi";
     executable := "";
     argv := ["launcher.py"; "script.py"];
     os_hasattr := offers [];
     normpath := Posix.normpath |}.

(** A Windows host, for a given [ntpath.normpath]. *)
Definition win32 (nt_normpath : string -> string) : Host :=
  {| platform := "win32";
     executable := "C:\Python\python.exe";
     argv := ["launcher.py"; "script.py"];
     os_hasattr := offers ["system"; "popen"; "execvp"; "startfile";
                           "spawnv"; "P_NOWAIT"; "P_DETACH"];
     normpath := nt_normpath |}.

(** The host [h] reporting another [sys.platform]. *)
Definition with_platform (p : string) (h : Host) : Host :=
  {| platform := p;
     executable := executable h;
     argv := argv h;
     os_hasattr := os_hasattr h;
     normpath := normpath h |}.

(** The host [h] started with another [sys.argv]. *)
Definition with_argv (args : list string) (h : Host) : Host :=
  {| platform := platform h;
     executable := executable h;
     argv := args;
     os_hasattr := os_hasattr h;
     normpath := normpath h |}.

(** The operating system answers every call with [v]. *)
Definition answering (v : Z) : oracle := fun _ => Returned v.

(** ** Reasoning support *)

(** A piece of code that leaves the module-level names as they are. *)
Definition keeps_globals {A : Type} (m : Py A) : Prop :=
  forall h o st, globals (fst (m h o st)) = globals st.

(** Unfolds the code of the module down to the host and the oracle. *)
Ltac py_unfold :=
  cbv beta iota zeta delta
    [launch construct LaunchMode_call call_method resolve mro base_of
     defines_run defines_announce bind ret raise read_globals ask emit print
     assert os_getattr os_invoke os_exec lift
     LaunchMode_announce LaunchMode_run System_run Popen_run Fork_run
     Start_run StartArgs_run Spawn_run TopLevel_run
     QuietPortableLauncher_announce
     imported module_init globals trace class_of what where_
     QuietPortableLauncher_base PortableLauncher pyfile pypath fst snd].

(** * Properties *)

(** ** The string model agrees with the interpreter on samples *)

Example split_empty : PyStr.split " "%char "" = [""].
Proof. reflexivity. Qed.

Example split_two_spaces : PyStr.split " "%char "a  b" = ["a"; ""; "b"].
Proof. reflexivity. Qed.

Example split_ws_runs :
  PyStr.split_ws "  /tmp/script.py   --flag " = ["/tmp/script.py"; "--flag"].
Proof. reflexivity. Qed.

Example lstrip_sample : PyStr.lstrip "   a b " = "a b ".
Proof. reflexivity. Qed.

Example posix_normpath_samples :
  Posix.normpath "a//b" = "a/b" /\ Posix.normpath "a/./b/../c/" = "a/c"
  /\ Posix.normpath "//x" = "//x" /\ Posix.normpath "///x" = "/x"
  /\ Posix.normpath "../.." = "../.." /\ Posix.normpath "/.." = "/"
  /\ Posix.normpath "" = "." /\ Posix.normpath "/tmp/script.py" = "/tmp/script.py".
Proof. repeat split; reflexivity. Qed.

(** ** Splitting and joining *)

Section Split.

Variable sep : ascii.

Lemma split_cons (s : string) :
  exists head rest, PyStr.split sep s = head :: rest.
Proof.
  induction s as [|c s [head [rest IH]]]; simpl.
  - now exists "", [].
  - destruct (Ascii.eqb c sep).
    + now exists "", (PyStr.split sep s).
    + rewrite IH. now exists (String c head), rest.
Qed.

(** Putting the tokens side by side gives the string without its
    separators. *)
Lemma split_glued (s : string) :
  fold_right append "" (PyStr.split sep s) = PyStr.remove sep s.
Proof.
  induction s as [|c s IH]; simpl; [reflexivity|].
  destruct (Ascii.eqb c sep); simpl; [exact IH|].
  destruct (split_cons s) as [head [rest E]].
  rewrite E in *. simpl in *. now rewrite IH.
Qed.

(** Joining the tokens with the separator gives the string back. *)
Lemma join_split (s : string) :
  PyStr.join (String sep "") (PyStr.split sep s) = s.
Proof.
  unfold PyStr.join.
  induction s as [|c s IH]; simpl; [reflexivity|].
  destruct (split_cons s) as [head [rest E]].
  destruct (Ascii.eqb_spec c sep) as [->|_]; rewrite E in *.
  - change (String.concat (String sep "") ("" :: head :: rest))
      with ("" ++ String sep "" ++ String.concat (String sep "") (head :: rest)).
    now rewrite IH.
  - destruct rest as [|tok rest].
    + simpl in *. now rewrite IH.
    + change (String.concat (String sep "") (String c head :: tok :: rest))
        with (String c (head ++ String sep ""
                        ++ String.concat (String sep "") (tok :: rest))).
      now rewrite <- IH.
Qed.

Lemma contains_remove (s : string) :
  PyStr.contains sep (PyStr.remove sep s) = false.
Proof.
  induction s as [|c s IH]; simpl; [reflexivity|].
  destruct (Ascii.eqb c sep) eqn:E; simpl; [exact IH|].
  now rewrite E.
Qed.

Lemma contains_app (s t : string) :
  PyStr.contains sep (s ++ t) = PyStr.contains sep s || PyStr.contains sep t.
Proof.
  induction s as [|c s IH]; simpl; [reflexivity|].
  now rewrite IH, orb_assoc.
Qed.

End Split.

Lemma append_empty_r (s : string) : s ++ "" = s.
Proof. induction s as [|c s IH]; simpl; [reflexivity|now rewrite IH]. Qed.

(** [''.join(parts)] puts the parts side by side. *)
Lemma join_empty_sep (parts : list string) :
  PyStr.join "" parts = fold_right append "" parts.
Proof.
  unfold PyStr.join.
  induction parts as [|p parts IH]; simpl; [reflexivity|].
  destruct parts as [|q parts].
  - simpl. now rewrite append_empty_r.
  - rewrite IH. reflexivity.
Qed.

Lemma length_app (s t : string) :
  String.length (s ++ t) = String.length s + String.length t.
Proof. induction s as [|c s IH]; simpl; [reflexivity|now rewrite IH]. Qed.

Lemma length_glued_le_joined (sep : string) (parts : list string) :
  String.length (fold_right append "" parts)
  <= String.length (PyStr.join sep parts).
Proof.
  unfold PyStr.join.
  induction parts as [|p parts IH]; simpl; [lia|].
  destruct parts as [|q parts].
  - simpl. rewrite append_empty_r. lia.
  - rewrite !length_app in *. simpl in *. rewrite !length_app in *. lia.
Qed.

(** ** The command normalizer *)

(** The normalizer in terms of the tokens of the stripped line. *)
Lemma fixWindowsPath_tokens (h : Host) (cmdline head : string)
    (rest : list string) :
  PyStr.split " "%char (PyStr.lstrip cmdline) = head :: rest ->
  fixWindowsPath h cmdline
  = Ok (normpath h head ++ fold_right append "" rest).
Proof.
  intros E. unfold fixWindowsPath, getitem, slice_from. rewrite E.
  cbn [nth_error skipn app]. now rewrite join_empty_sep.
Qed.

(** A line of one token is normalized as a whole. *)
Lemma fixWindowsPath_single_token (h : Host) (cmdline head : string) :
  PyStr.split " "%char (PyStr.lstrip cmdline) = [head] ->
  fixWindowsPath h cmdline = Ok (normpath h head).
Proof.
  intros E. rewrite (fixWindowsPath_tokens h _ _ _ E). simpl.
  now rewrite append_empty_r.
Qed.

(** X3 - as soon as the line has an argument, the tokens of the result are not
    the normalized head followed by the arguments, whatever [normpath] is:
    the result is shorter than any line with these tokens. *)
Lemma fixWindowsPath_loses_tokens (h : Host) (cmdline head arg out : string)
    (rest : list string) :
  PyStr.split " "%char (PyStr.lstrip cmdline) = head :: arg :: rest ->
  fixWindowsPath h cmdline = Ok out ->
  PyStr.split " "%char out <> normpath h head :: arg :: rest.
Proof.
  intros E F T. rewrite (fixWindowsPath_tokens h _ _ _ E) in F.
  injection F as F.
  pose proof (join_split " "%char out) as J. rewrite T in J.
  change (PyStr.join " " (normpath h head :: arg :: rest))
    with (normpath h head ++ " " ++ PyStr.join " " (arg :: rest)) in J.
  pose proof (length_glued_le_joined " " (arg :: rest)) as L.
  apply (f_equal String.length) in J. rewrite <- F in J.
  change (fold_right append "" (arg :: rest))
    with (arg ++ fold_right append "" rest) in L.
  rewrite !length_app in J. rewrite length_app in L.
  set (joined := PyStr.join " " (arg :: rest)) in *.
  simpl in J. lia.
Qed.

(** C1 - the normalizer is meant to return the line with its head token
    normalized and its arguments untouched.  On the line [a//b x y] of a
    POSIX host the tokens are [a//b], [x] and [y] and the head normalizes to
    [a/b], yet the code returns [a/bxy], a line of the single token
    [a/bxy]: the head and the arguments have been merged. *)
Theorem fixWindowsPath_merges_head_and_arguments :
  PyStr.split " "%char (PyStr.lstrip "a//b x y") = ["a//b"; "x"; "y"]
  /\ normpath linux "a//b" = "a/b"
  /\ fixWindowsPath linux "a//b x y" = Ok "a/bxy"
  /\ PyStr.split " "%char "a/bxy" = ["a/bxy"]
  /\ PyStr.split " "%char "a/bxy" <> ["a/b"; "x"; "y"].
Proof. repeat split; try reflexivity. discriminate. Qed.

(** C4 - the normalizer returns the normalized head token immediately
    followed by the remaining tokens, with nothing between the head and the
    first of them and nothing between any two of them: what follows the
    normalized head holds no space, and is what remains of the stripped line
    after its head once every space is taken out. *)
Theorem fixWindowsPath_joins_without_separator (h : Host) (cmdline : string) :
  exists head rest,
    PyStr.split " "%char (PyStr.lstrip cmdline) = head :: rest
    /\ fixWindowsPath h cmdline
       = Ok (normpath h head ++ fold_right append "" rest)
    /\ head ++ fold_right append "" rest
       = PyStr.remove " "%char (PyStr.lstrip cmdline)
    /\ PyStr.contains " "%char (fold_right append "" rest) = false.
Proof.
  destruct (split_cons " "%char (PyStr.lstrip cmdline)) as [head [rest E]].
  exists head, rest.
  pose proof (split_glued " "%char (PyStr.lstrip cmdline)) as G.
  rewrite E in G. simpl in G.
  repeat split; auto using fixWindowsPath_tokens.
  pose proof (contains_remove " "%char (PyStr.lstrip cmdline)) as C.
  rewrite <- G, contains_app in C.
  now apply orb_false_iff in C.
Qed.

(** C9 - the normalizer returns a string for every input string and never
    raises: the list of tokens is never empty, so taking its first element
    cannot fail.  The empty line gives the normalized empty path. *)
Theorem fixWindowsPath_never_raises (h : Host) (cmdline : string) :
  (exists out, fixWindowsPath h cmdline = Ok out)
  /\ fixWindowsPath h "" = Ok (normpath h "").
Proof.
  split.
  - destruct (split_cons " "%char (PyStr.lstrip cmdline)) as [head [rest E]].
    eexists. exact (fixWindowsPath_tokens h _ _ _ E).
  - reflexivity.
Qed.

(** ** No code of the module rebinds a module-level name *)

Section KeepsGlobals.

Context {A B : Type}.

Lemma keeps_ret (a : A) : keeps_globals (ret a).
Proof. now intros h o st. Qed.

Lemma keeps_raise (e : exn) : keeps_globals (@raise A e).
Proof. now intros h o st. Qed.

Lemma keeps_bind (m : Py A) (k : A -> Py B) :
  keeps_globals m -> (forall a, keeps_globals (k a)) ->
  keeps_globals (bind m k).
Proof.
  intros Hm Hk h o st. unfold bind.
  specialize (Hm h o st).
  destruct (m h o st) as [st' [a|e|]]; simpl in *; try assumption.
  now rewrite Hk.
Qed.

Lemma keeps_lift (r : result A) : keeps_globals (lift r).
Proof. now destruct r; intros h o st. Qed.

End KeepsGlobals.

Lemma keeps_ask : keeps_globals ask.
Proof. now intros h o st. Qed.

Lemma keeps_read_globals : keeps_globals read_globals.
Proof. now intros h o st. Qed.

Lemma keeps_emit (e : event) : keeps_globals (emit e).
Proof. now intros h o st. Qed.

Lemma keeps_assert (cond : bool) (msg : option string) :
  keeps_globals (assert cond msg).
Proof. now destruct cond; intros h o st. Qed.

Lemma keeps_os_getattr (name : string) : keeps_globals (os_getattr name).
Proof.
  intros h o st. unfold os_getattr, bind, ask.
  now destruct (os_hasattr h name).
Qed.

Lemma keeps_os_invoke (c : os_call) : keeps_globals (os_invoke c).
Proof.
  intros h o st. unfold os_invoke, bind, emit. simpl.
  now destruct (o _).
Qed.

Lemma keeps_os_exec {A : Type} (c : os_call) : keeps_globals (@os_exec A c).
Proof.
  intros h o st. unfold os_exec, bind, emit. simpl.
  now destruct (o _).
Qed.

Create HintDb keeps.
#[local] Hint Resolve keeps_ret keeps_raise keeps_lift keeps_ask
  keeps_read_globals keeps_emit keeps_assert keeps_os_getattr
  keeps_os_invoke keeps_os_exec : keeps.

(** Goes through the statements of a body one after the other. *)
Ltac keeps_step :=
  lazymatch goal with
  | |- forall _, _ => intro
  | |- keeps_globals (bind _ _) => apply keeps_bind
  | |- keeps_globals (if ?b then _ else _) => destruct b
  | |- keeps_globals (match ?x with _ => _ end) => destruct x
  | |- keeps_globals (print _) => apply keeps_emit
  | |- _ => solve [auto with keeps]
  end.
Ltac keeps_body := repeat keeps_step.

Lemma keeps_defines_run (c : cls) (method : string -> Py unit) (arg : string) :
  defines_run c = Some method -> keeps_globals (method arg).
Proof.
  destruct c; simpl; intros E; inversion E; subst; clear E;
    unfold LaunchMode_run, System_run, Popen_run, Fork_run, Start_run,
      StartArgs_run, Spawn_run, TopLevel_run; keeps_body.
Qed.

Lemma keeps_defines_announce (c : cls) (method : string -> Py unit)
    (arg : string) :
  defines_announce c = Some method -> keeps_globals (method arg).
Proof.
  destruct c; simpl; intros E; inversion E; subst; clear E;
    unfold LaunchMode_announce, QuietPortableLauncher_announce; keeps_body.
Qed.

Lemma resolve_defined {T : Type} (own : cls -> option T) (order : list cls)
    (c : cls) (method : T) :
  resolve own order = Some (c, method) -> own c = Some method.
Proof.
  induction order as [|c' order IH]; simpl; [discriminate|].
  destruct (own c') eqn:E; [|exact IH].
  intros R. inversion R; subst. exact E.
Qed.

Lemma keeps_call_method (own : cls -> option (string -> Py unit))
    (name : string) (self : instance) (arg : string) :
  (forall c method a, own c = Some method -> keeps_globals (method a)) ->
  keeps_globals (call_method own name self arg).
Proof.
  intros Hown. unfold call_method.
  apply keeps_bind; [auto with keeps|]. intros g.
  destruct (resolve own (mro g (class_of self))) as [[c method]|] eqn:R;
    [|auto with keeps].
  eapply Hown. eapply resolve_defined. exact R.
Qed.

Lemma keeps_construct (c : cls) (label command : string) :
  keeps_globals (construct c label command).
Proof. unfold construct. keeps_body. Qed.

Lemma keeps_LaunchMode_call (self : instance) :
  keeps_globals (LaunchMode_call self).
Proof.
  unfold LaunchMode_call. apply keeps_bind; [|intros _];
    apply keeps_call_method;
    eauto using keeps_defines_run, keeps_defines_announce.
Qed.

Lemma keeps_launch (c : cls) (label command : string) :
  keeps_globals (launch c label command).
Proof.
  unfold launch.
  apply keeps_bind; auto using keeps_construct, keeps_LaunchMode_call.
Qed.

#[local] Hint Resolve keeps_construct keeps_LaunchMode_call keeps_launch
  : keeps.

Lemma keeps_selfTest : keeps_globals selfTest.
Proof. unfold selfTest. keeps_body. Qed.

Lemma keeps_perform (a : action) : keeps_globals (perform a).
Proof. destruct a; simpl; try apply keeps_selfTest; keeps_body. Qed.

Lemma keeps_perform_all (script : list action) :
  keeps_globals (perform_all script).
Proof.
  induction script as [|a script IH]; simpl; [auto with keeps|].
  apply keeps_bind; [apply keeps_perform|intros _; exact IH].
Qed.

(** ** The default launcher *)

(** Only a platform identifier that starts with [win] counts as Windows. *)
Example is_win_samples :
  map (fun p => is_win (with_platform p linux))
    ["win32"; "windows"; "cygwin"; "darwin"; "linux"; "wi"; ""]
  = [true; true; false; false; false; false; false].
Proof. reflexivity. Qed.

(** C2 - at import the name [PortableLauncher] is bound to [Spawn] exactly
    when the platform identifier starts with [win], and to [Fork] exactly
    when it does not; whatever a client then does with the module (building
    instances, calling them, normalizing lines, running the self test, in
    any number and order, against any operating system) the binding is
    still the one made at import. *)
Theorem PortableLauncher_bound_once (h : Host) :
  (PortableLauncher (module_init h) = Spawn <-> is_win h = true)
  /\ (PortableLauncher (module_init h) = Fork <-> is_win h = false)
  /\ forall (o : oracle) (script : list action) (tr : list event),
       PortableLauncher
         (globals (fst (perform_all script h o (imported h tr))))
       = PortableLauncher (module_init h).
Proof.
  repeat split; unfold module_init; simpl;
    try (destruct (is_win h); congruence).
  intros o script tr.
  now rewrite (keeps_perform_all script h o (imported h tr)).
Qed.

(** ** Running the launchers *)

Lemma os_calls_app (tr tr' : list event) :
  os_calls (tr ++ tr') = (os_calls tr ++ os_calls tr')%list.
Proof.
  induction tr as [|[text|c] tr IH]; simpl; [reflexivity|exact IH|].
  now rewrite IH.
Qed.

Lemma printed_app (tr tr' : list event) :
  printed (tr ++ tr') = (printed tr ++ printed tr')%list.
Proof.
  induction tr as [|[text|c] tr IH]; simpl; [reflexivity| |exact IH].
  now rewrite IH.
Qed.

(** C3 - calling a [Start] or a [StartArgs] instance on a host whose
    platform identifier does not start with [win], or a [Fork] instance on a
    host whose [os] module has no [fork], ends in the [AssertionError] of the
    guard that opens [run] (the precondition error of the design): [run]
    raises from whatever state it is entered in and leaves that state as it
    found it, so the whole call has printed the label and made no call into
    the operating system. *)
Theorem guarded_run_raises_before_any_os_call
    (h : Host) (o : oracle) (tr : list event) (c : cls)
    (label command : string) :
  ((c = Start \/ c = StartArgs) /\ is_win h = false)
  \/ (c = Fork /\ os_hasattr h "fork" = false) ->
  (forall st,
     call_method defines_run "run"
       {| class_of := c; what := label; where_ := command |} command h o st
     = (st, Raised (AssertionError None)))
  /\ launch c label command h o (imported h tr)
     = (imported h (tr ++ [Print label]), Raised (AssertionError None))
  /\ os_calls (tr ++ [Print label]) = os_calls tr.
Proof.
  intros [[[-> | ->] W] | [-> F]]; repeat split;
    try (rewrite os_calls_app; simpl; apply app_nil_r);
    try intros st; py_unfold; rewrite ?W, ?F; reflexivity.
Qed.

Lemma guarded_run_raises_before_any_os_call_witness :
  (((Start = Start \/ Start = StartArgs) /\ is_win linux = false)
   \/ (Start = Fork /\ os_hasattr linux "fork" = false))
  /\ launch Start "edit" "notes.py" linux (answering 0) (imported linux [])
     = (imported linux [Print "edit"], Raised (AssertionError None)).
Proof.
  assert (P : ((Start = Start \/ Start = StartArgs) /\ is_win linux = false)
              \/ (Start = Fork /\ os_hasattr linux "fork" = false))
    by (left; split; [left|]; reflexivity).
  split; [exact P|].
  exact (proj1 (proj2 (guarded_run_raises_before_any_os_call
                         linux (answering 0) [] Start "edit" "notes.py" P))).
Defined.

(** C5 - calling a [TopLevel] instance fails whatever label and command it
    was built with, the empty ones included: after the label is printed,
    [run] raises the [AssertionError] with the message
    [Mode not yet implemented.], which is how the module signals a mode that
    was never filled in; no call into the operating system is made. *)
Theorem TopLevel_always_fails
    (h : Host) (o : oracle) (tr : list event) (label command : string) :
  launch TopLevel label command h o (imported h tr)
  = (imported h (tr ++ [Print label]),
     Raised (AssertionError (Some "Mode not yet implemented.")))
  /\ launch TopLevel "" "" h o (imported h tr)
     = (imported h (tr ++ [Print ""]),
        Raised (AssertionError (Some "Mode not yet implemented.")))
  /\ os_calls (tr ++ [Print label]) = os_calls tr.
Proof.
  repeat split; try reflexivity.
  rewrite os_calls_app. simpl. apply app_nil_r.
Qed.

(** C8 - building an instance of any class changes nothing in the state, so
    it prints nothing and starts nothing; it gives the instance holding the
    label and the command (or [TypeError] for the abstract [LaunchMode]).
    Calling the instance first announces the label, which prints it (for the
    quiet class, prints nothing) and returns, and then runs the command: the
    call as a whole is [run(command)] entered right after the announcement,
    with nothing before, between or after the two. *)
Theorem call_announces_then_runs
    (h : Host) (o : oracle) (st : State) (tr : list event) (c : cls)
    (label command : string) :
  let self := {| class_of := c; what := label; where_ := command |} in
  let announced :=
    (tr ++ match c with
           | QuietPortableLauncher => []
           | _ => [Print label]
           end)%list in
  fst (construct c label command h o st) = st
  /\ snd (construct c label command h o (imported h tr))
     = match c with
       | LaunchMode => Raised TypeError
       | _ => Done self
       end
  /\ call_method defines_announce "announce" self label h o (imported h tr)
     = (imported h announced, Done tt)
  /\ LaunchMode_call self h o (imported h tr)
     = call_method defines_run "run" self command h o (imported h announced).
Proof.
  intros self announced. subst self announced. repeat split.
  - unfold construct, bind, read_globals.
    now destruct (resolve defines_run (mro (globals st) c)) as [[[] m]|].
  - destruct c; py_unfold; try reflexivity; now destruct (is_win h).
  - destruct c; py_unfold; try reflexivity;
      destruct (is_win h); now rewrite app_nil_r.
  - destruct c; py_unfold; try reflexivity;
      destruct (is_win h); now rewrite app_nil_r.
Qed.



(** On Windows a command with an argument is one element of the argument
    vector. *)
Example Spawn_on_windows (nt_normpath : string -> string) :
  os_calls (trace (fst (launch Spawn "run" "script.py --flag"
                          (win32 nt_normpath) (answering 0)
                          (imported (win32 nt_normpath) []))))
  = [os_spawnv P_DETACH "C:\Python\python.exe"
       ["python.exe"; "script.py --flag"]].
Proof. reflexivity. Qed.

(** The blocking shell launcher on a POSIX host: the script path is
    normalized; with an argument the two tokens reach the shell merged. *)
Example System_on_linux :
  os_calls (trace (fst (launch System "run" "/tmp//a.py" linux (answering 0)
                          (imported linux []))))
  = [os_system "/usr/bin/python3 /tmp/a.py"]
  /\ os_calls (trace (fst (launch System "run" "/tmp//a.py --flag" linux
                             (answering 0) (imported linux []))))
     = [os_system "/usr/bin/python3 /tmp/a.py--flag"].
Proof. split; reflexivity. Qed.

(** The self test on a POSIX host, in the parent process. *)
Example selfTest_on_linux :
  selfTest linux (answering 4242) (imported linux [])
  = (imported linux
       [Print "default mode..."; Print "script.py"; Os os_fork;
        Print "system mode..."; Print "script.py";
        Os (os_system "/usr/bin/python3 script.py")],
     Done tt).
Proof. reflexivity. Qed.

(** C6 - a [QuietPortableLauncher] instance and an instance of the default
    launcher built with the same label and command, called on the same host
    against the same operating system, make the same calls into the
    operating system and end the same way; the quiet one prints nothing,
    the default one prints the label and nothing else. *)
Theorem quiet_launcher_same_launch_no_announce
    (h : Host) (o : oracle) (tr : list event) (label command : string) :
  let quiet :=
    launch QuietPortableLauncher label command h o (imported h tr) in
  let default :=
    launch (PortableLauncher (module_init h)) label command h o
      (imported h tr) in
  os_calls (trace (fst quiet)) = os_calls (trace (fst default))
  /\ snd quiet = snd default
  /\ printed (trace (fst quiet)) = printed tr
  /\ printed (trace (fst default)) = (printed tr ++ [label])%list.
Proof.
  py_unfold. destruct (is_win h).
  - (* Spawn *)
    destruct (os_hasattr h "spawnv");
      [|now rewrite !os_calls_app, !printed_app; simpl; rewrite !app_nil_r].
    destruct (os_hasattr h "P_DETACH");
      [|now rewrite !os_calls_app, !printed_app; simpl; rewrite !app_nil_r].
    cbn [trace globals pypath pyfile].
    rewrite !os_calls_app. cbn [os_calls]. rewrite !app_nil_r.
    destruct (o _); cbn [fst snd trace];
      rewrite !os_calls_app, !printed_app; simpl; now rewrite !app_nil_r.
  - (* Fork *)
    destruct (os_hasattr h "fork");
      [|now rewrite !os_calls_app, !printed_app; simpl; rewrite !app_nil_r].
    cbn [trace globals pypath pyfile].
    rewrite !os_calls_app. cbn [os_calls]. rewrite !app_nil_r.
    destruct (o _) as [pid|errno]; cbn [fst snd trace];
      [|rewrite !os_calls_app, !printed_app; simpl; now rewrite !app_nil_r].
    destruct (pid =? 0)%Z;
      [|rewrite !os_calls_app, !printed_app; simpl; now rewrite !app_nil_r].
    destruct (os_hasattr h "execvp");
      [|rewrite !os_calls_app, !printed_app; simpl; now rewrite !app_nil_r].
    cbn [trace globals pypath pyfile].
    rewrite !os_calls_app. cbn [os_calls]. rewrite !app_nil_r.
    destruct (o _); cbn [fst snd trace];
      rewrite !os_calls_app, !printed_app; simpl; now rewrite !app_nil_r.
Qed.

(** ** The end-to-end scenario of the default launcher *)

(** C7, as stated, fails on a host that is not Windows and has no
    [os.fork]: there the default launcher is [Fork], and calling it prints
    the label and raises at the guard, without any call into the operating
    system. *)
Lemma default_launch_on_host_without_fork :
  is_win wasi = false
  /\ PortableLauncher (module_init wasi) = Fork
  /\ launch (PortableLauncher (module_init wasi)) "run"
       "/tmp/script.py --flag" wasi (answering 0) (imported wasi [])
     = (imported wasi [Print "run"], Raised (AssertionError None))
  /\ os_calls [Print "run"] = [].
Proof. repeat split. Qed.

(** C7, amended - on a host that is not Windows and whose [os] module
    offers [fork] and [execvp], the default launcher is [Fork]; built with
    the label [run] and the command [/tmp/script.py --flag] and called, it
    prints the label and calls [os.fork].  Where [fork] answers 0 (the
    child) the next and last call is
    [os.execvp(pypath, ['python', '/tmp/script.py', '--flag'])], the script
    path being its own normal form, after which the image is replaced or the
    failure is raised.  Where [fork] answers a pid (the parent) the call
    returns at once, having made no other call.  Where [fork] fails its
    error is raised. *)
Theorem default_launch_forks_and_execs
    (h : Host) (o : oracle) (tr : list event) :
  is_win h = false ->
  os_hasattr h "fork" = true ->
  os_hasattr h "execvp" = true ->
  let r := launch (PortableLauncher (module_init h)) "run"
             "/tmp/script.py --flag" h o (imported h tr) in
  let exec := os_execvp (executable h) ["python"; "/tmp/script.py"; "--flag"] in
  PortableLauncher (module_init h) = Fork
  /\ Posix.normpath "/tmp/script.py" = "/tmp/script.py"
  /\ match o (os_calls tr ++ [os_fork])%list with
     | Returned pid =>
         if (pid =? 0)%Z
         then trace (fst r) = (tr ++ [Print "run"; Os os_fork; Os exec])%list
              /\ snd r = match o (os_calls tr ++ [os_fork; exec])%list with
                         | Returned _ => Replaced
                         | Failed errno => Raised (OSError errno)
                         end
         else trace (fst r) = (tr ++ [Print "run"; Os os_fork])%list
              /\ snd r = Done tt
     | Failed errno =>
         trace (fst r) = (tr ++ [Print "run"; Os os_fork])%list
         /\ snd r = Raised (OSError errno)
     end.
Proof.
  intros W F E r exec. subst r exec.
  split; [unfold module_init; simpl; now rewrite W|].
  split; [reflexivity|].
  py_unfold. rewrite W, F.
  change (PyStr.split_ws "/tmp/script.py --flag")
    with ["/tmp/script.py"; "--flag"].
  cbn [trace globals pypath pyfile app].
  rewrite !os_calls_app. cbn [os_calls]. rewrite app_nil_r.
  destruct (o (os_calls tr ++ [os_fork])%list) as [pid|errno];
    cbn [fst snd trace]; [|now rewrite <- app_assoc].
  destruct (pid =? 0)%Z; [|now rewrite <- app_assoc].
  rewrite E. cbn [trace globals pypath pyfile app].
  rewrite !os_calls_app. cbn [os_calls]. rewrite app_nil_r, <- !app_assoc.
  cbn [app].
  destruct (o _); cbn [fst snd trace]; split; reflexivity.
Qed.

Lemma default_launch_forks_and_execs_witness :
  (is_win linux = false /\ os_hasattr linux "fork" = true
   /\ os_hasattr linux "execvp" = true)
  /\ trace (fst (launch (PortableLauncher (module_init linux)) "run"
                   "/tmp/script.py --flag" linux (answering 0)
                   (imported linux [])))
     = [Print "run"; Os os_fork;
        Os (os_execvp "/usr/bin/python3"
              ["python"; "/tmp/script.py"; "--flag"])]
  /\ snd (launch (PortableLauncher (module_init linux)) "run"
            "/tmp/script.py --flag" linux (answering 0) (imported linux []))
     = Replaced.
Proof.
  split; [repeat split|].
  exact (proj2 (proj2 (default_launch_forks_and_execs linux (answering 0) []
                         eq_refl eq_refl eq_refl))).
Defined.

(** In the parent the call returns right after [os.fork]. *)
Example default_launch_in_parent :
  launch (PortableLauncher (module_init linux)) "run" "/tmp/script.py --flag"
    linux (answering 4242) (imported linux [])
  = (imported linux [Print "run"; Os os_fork], Done tt).
Proof. reflexivity. Qed.

(** * Further properties of the module *)

(** ** The command normalizer on whole lines *)

Lemma lstrip_blank_app (ws s : string) :
  PyStr.blank ws = true -> PyStr.lstrip (ws ++ s) = PyStr.lstrip s.
Proof.
  induction ws as [|c ws IH]; simpl; [reflexivity|].
  intros B. apply andb_prop in B as [C B]. rewrite C. now apply IH.
Qed.

Lemma split_without_sep (sep : ascii) (s : string) :
  PyStr.contains sep s = false -> PyStr.split sep s = [s].
Proof.
  induction s as [|c s IH]; simpl; [reflexivity|].
  intros N. apply orb_false_iff in N as [C N].
  rewrite C, (IH N). reflexivity.
Qed.

Lemma fixWindowsPath_returns (h : Host) (cmdline : string) :
  exists out, fixWindowsPath h cmdline = Ok out.
Proof.
  destruct (split_cons " "%char (PyStr.lstrip cmdline)) as [head [rest E]].
  eexists. exact (fixWindowsPath_tokens h _ _ _ E).
Qed.

(** X1 - whitespace in front of the command line does not change the result;
    a line of whitespace only is normalized like the empty line. *)
Theorem fixWindowsPath_ignores_leading_whitespace
    (h : Host) (ws cmdline : string) :
  PyStr.blank ws = true ->
  fixWindowsPath h (ws ++ cmdline) = fixWindowsPath h cmdline
  /\ fixWindowsPath h ws = Ok (normpath h "").
Proof.
  intros B. split.
  - unfold fixWindowsPath. now rewrite lstrip_blank_app.
  - rewrite <- (append_empty_r ws). unfold fixWindowsPath.
    now rewrite lstrip_blank_app.
Qed.

Lemma fixWindowsPath_ignores_leading_whitespace_witness :
  PyStr.blank "  " = true
  /\ fixWindowsPath linux ("  " ++ "a//b.py") = fixWindowsPath linux "a//b.py".
Proof.
  split; [reflexivity|].
  exact (proj1 (fixWindowsPath_ignores_leading_whitespace
                  linux "  " "a//b.py" eq_refl)).
Defined.

(** X2 - a command line that is a script path alone, with no space after its
    leading whitespace, comes out as the normalized path. *)
Theorem fixWindowsPath_of_path_alone (h : Host) (cmdline : string) :
  PyStr.contains " "%char (PyStr.lstrip cmdline) = false ->
  fixWindowsPath h cmdline = Ok (normpath h (PyStr.lstrip cmdline)).
Proof.
  intros N. apply fixWindowsPath_single_token.
  now apply split_without_sep.
Qed.

Lemma fixWindowsPath_of_path_alone_witness :
  PyStr.contains " "%char (PyStr.lstrip "/tmp//a.py") = false
  /\ fixWindowsPath linux "/tmp//a.py" = Ok "/tmp/a.py".
Proof.
  split; [reflexivity|].
  exact (fixWindowsPath_of_path_alone linux "/tmp//a.py" eq_refl).
Defined.

Lemma fixWindowsPath_loses_tokens_witness :
  (PyStr.split " "%char (PyStr.lstrip "a//b x y") = ["a//b"; "x"; "y"]
   /\ fixWindowsPath linux "a//b x y" = Ok "a/bxy")
  /\ PyStr.split " "%char "a/bxy" <> [normpath linux "a//b"; "x"; "y"].
Proof.
  split; [split; reflexivity|].
  exact (fixWindowsPath_loses_tokens linux "a//b x y" "a//b" "x" "a/bxy" ["y"]
           eq_refl eq_refl).
Defined.

(** ** The launchers one by one *)

(** Splits on the next thing the code of a launcher looks at: the
    platform, a name of [os], the result of the normalizer, an answer of the
    operating system, the pid. *)
Ltac py_case :=
  match goal with
  | |- context [fixWindowsPath ?h ?c] =>
      let out := fresh "out" in
      let E := fresh "E" in
      destruct (fixWindowsPath_returns h c) as [out E]; rewrite E in *
  | |- context [if is_win ?h then _ else _] =>
      destruct (is_win h) eqn:?
  | |- context [if os_hasattr ?h ?n then _ else _] =>
      destruct (os_hasattr h n) eqn:?
  | |- context [match ?o ?l with Returned _ => _ | Failed _ => _ end] =>
      destruct (o l) eqn:?
  | |- context [if (?p =? 0)%Z then _ else _] =>
      destruct (p =? 0)%Z eqn:?
  end.

Ltac py_trace :=
  cbn [trace globals pypath pyfile fst snd];
  rewrite ?os_calls_app, ?printed_app; cbn [os_calls printed app];
  rewrite ?app_nil_r, <- ?app_assoc; cbn [app].

(** X4 - calling a [System] instance prints the label and, on a host with
    [os.system], makes the single call [os.system(pypath + ' ' + line)]
    where [line] is what the normalizer returns for the command; the exit
    status is dropped, so the call returns normally whatever the shell
    reports, and only a failure of the call itself is raised.  Without
    [os.system] the lookup raises and nothing is started. *)
Theorem System_launches_through_the_shell
    (h : Host) (o : oracle) (tr : list event) (label command : string) :
  exists line,
    fixWindowsPath h command = Ok line
    /\ launch System label command h o (imported h tr)
       = if os_hasattr h "system"
         then let call := os_system (executable h ++ " " ++ line) in
              (imported h (tr ++ [Print label; Os call]),
               match o (os_calls tr ++ [call])%list with
               | Returned _ => Done tt
               | Failed errno => Raised (OSError errno)
               end)
         else (imported h (tr ++ [Print label]), Raised (AttributeError "system")).
Proof.
  destruct (fixWindowsPath_returns h command) as [line E].
  exists line. split; [exact E|].
  py_unfold. rewrite E.
  destruct (os_hasattr h "system"); [|reflexivity].
  py_trace. destruct (o _); py_trace; reflexivity.
Qed.

(** X5 - calling a [Popen] instance prints the label and, on a host with
    [os.popen], makes the single call [os.popen(pypath + ' ' + line)] where
    [line] is what the normalizer returns for the command; the pipe it gets
    is dropped. *)
Theorem Popen_launches_through_a_pipe
    (h : Host) (o : oracle) (tr : list event) (label command : string) :
  exists line,
    fixWindowsPath h command = Ok line
    /\ launch Popen label command h o (imported h tr)
       = if os_hasattr h "popen"
         then let call := os_popen (executable h ++ " " ++ line) in
              (imported h (tr ++ [Print label; Os call]),
               match o (os_calls tr ++ [call])%list with
               | Returned _ => Done tt
               | Failed errno => Raised (OSError errno)
               end)
         else (imported h (tr ++ [Print label]), Raised (AttributeError "popen")).
Proof.
  destruct (fixWindowsPath_returns h command) as [line E].
  exists line. split; [exact E|].
  py_unfold. rewrite E.
  destruct (os_hasattr h "popen"); [|reflexivity].
  py_trace. destruct (o _); py_trace; reflexivity.
Qed.

(** X6 - calling a [Start] instance prints the label; then, on a Windows
    host with [os.startfile], it makes the single call [os.startfile(line)],
    where [line] is what the normalizer returns for the command (the
    interpreter is not named, the file association decides what runs); on a
    Windows host without [os.startfile] the lookup raises; on any other
    host the guard raises.  Nothing is started in the last two cases. *)
Theorem Start_opens_the_normalized_line
    (h : Host) (o : oracle) (tr : list event) (label command : string) :
  exists line,
    fixWindowsPath h command = Ok line
    /\ launch Start label command h o (imported h tr)
       = if is_win h
         then if os_hasattr h "startfile"
              then (imported h (tr ++ [Print label; Os (os_startfile line)]),
                    match o (os_calls tr ++ [os_startfile line])%list with
                    | Returned _ => Done tt
                    | Failed errno => Raised (OSError errno)
                    end)
              else (imported h (tr ++ [Print label]),
                    Raised (AttributeError "startfile"))
         else (imported h (tr ++ [Print label]), Raised (AssertionError None)).
Proof.
  destruct (fixWindowsPath_returns h command) as [line E].
  exists line. split; [exact E|].
  py_unfold. destruct (is_win h); [|reflexivity]. rewrite E.
  destruct (os_hasattr h "startfile"); [|reflexivity].
  py_trace. destruct (o _); py_trace; reflexivity.
Qed.

(** X7 - calling a [StartArgs] instance prints the label; then, on a
    Windows host with [os.system], it makes the single call
    [os.system('start ' + command)]: the command goes to the shell exactly
    as given, not normalized, and the exit status is dropped.  On a Windows
    host without [os.system] the lookup raises; on any other host the guard
    raises. *)
Theorem StartArgs_keeps_the_command_as_given
    (h : Host) (o : oracle) (tr : list event) (label command : string) :
  launch StartArgs label command h o (imported h tr)
  = if is_win h
    then if os_hasattr h "system"
         then let call := os_system ("start " ++ command) in
              (imported h (tr ++ [Print label; Os call]),
               match o (os_calls tr ++ [call])%list with
               | Returned _ => Done tt
               | Failed errno => Raised (OSError errno)
               end)
         else (imported h (tr ++ [Print label]),
               Raised (AttributeError "system"))
    else (imported h (tr ++ [Print label]), Raised (AssertionError None)).
Proof.
  py_unfold. destruct (is_win h); [|reflexivity].
  destruct (os_hasattr h "system"); [|reflexivity].
  py_trace. destruct (o _); py_trace; reflexivity.
Qed.

(** On Windows the two launchers treat the same command differently. *)
Example Start_and_StartArgs_on_windows (nt_normpath : string -> string) :
  os_calls (trace (fst (launch Start "open" "a.py -x" (win32 nt_normpath)
                          (answering 0) (imported (win32 nt_normpath) []))))
  = [os_startfile (nt_normpath "a.py" ++ "-x")]
  /\ os_calls (trace (fst (launch StartArgs "open" "a.py -x"
                             (win32 nt_normpath) (answering 0)
                             (imported (win32 nt_normpath) []))))
     = [os_system "start a.py -x"].
Proof. split; reflexivity. Qed.

(** *** The arguments [Fork] hands to the interpreter *)

Lemma spaceless_app (s t : string) :
  PyStr.spaceless (s ++ t) = PyStr.spaceless s && PyStr.spaceless t.
Proof.
  induction s as [|c s IH]; simpl; [reflexivity|].
  now rewrite IH, andb_assoc.
Qed.

(** The pieces [str.split()] gives are never empty and hold no
    whitespace. *)
Lemma split_ws_from_pieces (s word : string) :
  PyStr.spaceless word = true ->
  Forall (fun piece => piece <> "" /\ PyStr.spaceless piece = true)
    (PyStr.split_ws_from word s).
Proof.
  revert word. induction s as [|c s IH]; intros word W; simpl.
  - destruct (String.eqb_spec word ""); auto.
  - destruct (PyStr.isspace c) eqn:C.
    + destruct (String.eqb_spec word ""); auto.
    + apply IH. rewrite spaceless_app, W. simpl. now rewrite C.
Qed.

Lemma split_ws_blank (s : string) :
  PyStr.blank s = true -> PyStr.split_ws s = [].
Proof.
  unfold PyStr.split_ws. induction s as [|c s IH]; simpl; [reflexivity|].
  intros B. apply andb_prop in B as [C B]. rewrite C. now apply IH.
Qed.

(** X8 - on a host with [os.fork], calling a [Fork] instance prints the
    label and calls [os.fork].  Where that answers a pid other than 0 (the
    parent) the call returns at once.  Where it answers 0 (the child) the
    only further step is [os.execvp(pypath, [pyfile] + pieces)], with
    [pieces] the command cut at runs of whitespace (none of them empty, none
    holding whitespace, the script path not normalized): either the image is
    replaced or the failure is raised in the child.  A failure of [os.fork]
    is raised.  On a host without [os.fork] the guard raises. *)
Theorem Fork_launches_in_a_child
    (h : Host) (o : oracle) (tr : list event) (label command : string) :
  let pieces := PyStr.split_ws command in
  let exec := os_execvp (executable h) (pyfile (module_init h) :: pieces) in
  Forall (fun piece => piece <> "" /\ PyStr.spaceless piece = true) pieces
  /\ launch Fork label command h o (imported h tr)
     = if os_hasattr h "fork"
       then match o (os_calls tr ++ [os_fork])%list with
            | Returned pid =>
                if (pid =? 0)%Z
                then if os_hasattr h "execvp"
                     then (imported h
                             (tr ++ [Print label; Os os_fork; Os exec]),
                           match o (os_calls tr ++ [os_fork; exec])%list with
                           | Returned _ => Replaced
                           | Failed errno => Raised (OSError errno)
                           end)
                     else (imported h (tr ++ [Print label; Os os_fork]),
                           Raised (AttributeError "execvp"))
                else (imported h (tr ++ [Print label; Os os_fork]), Done tt)
            | Failed errno =>
                (imported h (tr ++ [Print label; Os os_fork]),
                 Raised (OSError errno))
            end
       else (imported h (tr ++ [Print label]), Raised (AssertionError None)).
Proof.
  intros pieces exec. subst pieces exec.
  split; [now apply split_ws_from_pieces|].
  py_unfold. destruct (os_hasattr h "fork"); [|reflexivity].
  py_trace. destruct (o _) as [pid|errno]; py_trace; [|reflexivity].
  destruct (pid =? 0)%Z; [|reflexivity].
  destruct (os_hasattr h "execvp"); [|reflexivity].
  py_trace. destruct (o _); py_trace; reflexivity.
Qed.

(** X9 - a [Fork] instance built with an empty command, or one of
    whitespace only, starts the interpreter in the child with no script and
    no argument: the argument vector is [pyfile] alone. *)
Theorem Fork_with_blank_command
    (h : Host) (o : oracle) (tr : list event) (label command : string) :
  PyStr.blank command = true ->
  os_hasattr h "fork" = true ->
  os_hasattr h "execvp" = true ->
  o (os_calls tr ++ [os_fork])%list = Returned 0%Z ->
  trace (fst (launch Fork label command h o (imported h tr)))
  = (tr ++ [Print label; Os os_fork;
            Os (os_execvp (executable h) [pyfile (module_init h)])])%list.
Proof.
  intros B F E C. py_unfold. rewrite F, (split_ws_blank _ B).
  py_trace. rewrite C. cbn [Z.eqb]. rewrite E. clear C.
  py_trace. destruct (o _); py_trace; reflexivity.
Qed.

Lemma Fork_with_blank_command_witness :
  (PyStr.blank "  " = true /\ os_hasattr linux "fork" = true
   /\ os_hasattr linux "execvp" = true
   /\ answering 0 (os_calls [] ++ [os_fork])%list = Returned 0%Z)
  /\ trace (fst (launch Fork "shell" "  " linux (answering 0)
                   (imported linux [])))
     = [Print "shell"; Os os_fork; Os (os_execvp "/usr/bin/python3" ["python"])].
Proof.
  split; [repeat split|].
  exact (Fork_with_blank_command linux (answering 0) [] "shell" "  "
           eq_refl eq_refl eq_refl eq_refl).
Defined.

(** ** What no launcher does *)

(** Runs a launch through every case the code distinguishes. *)
Ltac py_run := py_unfold; repeat (py_trace; py_case); py_trace.

(** X10 - calling an instance replaces the image of the calling process
    only in the child of a fork: if the call ends with the image replaced,
    the class is [Fork] (or the quiet launcher on a host that is not
    Windows), the host has [os.fork], and [os.fork] answered 0.  With every
    other launcher, and in the parent, the caller keeps running. *)
Theorem only_the_forked_child_is_replaced
    (h : Host) (o : oracle) (tr : list event) (c : cls)
    (label command : string) :
  snd (launch c label command h o (imported h tr)) = Replaced ->
  (c = Fork \/ (c = QuietPortableLauncher /\ is_win h = false))
  /\ os_hasattr h "fork" = true
  /\ o (os_calls tr ++ [os_fork])%list = Returned 0%Z.
Proof.
  destruct c; py_run; intros R; try discriminate R;
    match goal with
    | Z : (_ =? 0)%Z = true |- _ => apply Z.eqb_eq in Z; subst
    end; auto.
Qed.

Lemma only_the_forked_child_is_replaced_witness :
  snd (launch Fork "run" "a.py" linux (answering 0) (imported linux []))
  = Replaced
  /\ os_hasattr linux "fork" = true
  /\ answering 0 (os_calls [] ++ [os_fork])%list = Returned 0%Z.
Proof.
  split; [reflexivity|].
  exact (proj2 (only_the_forked_child_is_replaced linux (answering 0) []
                  Fork "run" "a.py" eq_refl)).
Defined.

(** X11 - a call prints the label and nothing else: no [run] of the module
    prints.  The quiet launcher prints nothing at all, and so does the
    attempt to build the abstract [LaunchMode]. *)
Theorem launch_prints_the_label_only
    (h : Host) (o : oracle) (tr : list event) (c : cls)
    (label command : string) :
  printed (trace (fst (launch c label command h o (imported h tr))))
  = (printed tr ++ match c with
                   | LaunchMode | QuietPortableLauncher => []
                   | _ => [label]
                   end)%list.
Proof. destruct c; py_run; reflexivity. Qed.

(** X12 - a call makes at most two calls into the operating system, and
    two only for [Fork] (or the quiet launcher over it): every other
    launcher makes at most one, [TopLevel] and the abstract class none. *)
Theorem launch_makes_few_os_calls
    (h : Host) (o : oracle) (tr : list event) (c : cls)
    (label command : string) :
  exists calls,
    os_calls (trace (fst (launch c label command h o (imported h tr))))
    = (os_calls tr ++ calls)%list
    /\ length calls <= match c with
                       | Fork | QuietPortableLauncher => 2
                       | LaunchMode | TopLevel => 0
                       | _ => 1
                       end.
Proof.
  destruct c; py_run;
    match goal with
    | |- exists calls, (os_calls tr ++ ?l)%list = _ /\ _ =>
        exists l; split; [reflexivity|simpl; lia]
    | |- exists calls, os_calls tr = _ /\ _ =>
        exists []; split; [now rewrite app_nil_r|simpl; lia]
    end.
Qed.

(** ** The self test *)

(** X13 - started without a script name ([sys.argv] shorter than two),
    the self test raises [IndexError] at once: nothing is printed and
    nothing is launched. *)
Theorem selfTest_needs_a_script_name (h : Host) (o : oracle) (st : State) :
  length (argv h) < 2 ->
  selfTest h o st = (st, Raised IndexError).
Proof.
  intros L. unfold selfTest, bind, ask, lift, getitem.
  assert (N : nth_error (argv h) 1 = None) by (apply nth_error_None; lia).
  now rewrite N.
Qed.

Lemma selfTest_needs_a_script_name_witness :
  length (argv (with_argv ["launcher.py"] linux)) < 2
  /\ selfTest (with_argv ["launcher.py"] linux) (answering 0)
       (imported (with_argv ["launcher.py"] linux) [])
     = (imported (with_argv ["launcher.py"] linux) [], Raised IndexError).
Proof.
  assert (L : length (argv (with_argv ["launcher.py"] linux)) < 2)
    by (simpl; lia).
  split; [exact L|].
  exact (selfTest_needs_a_script_name _ (answering 0) _ L).
Defined.

(** X14 - on a host that is not Windows and has no [os.fork], the self
    test stops in its first step: it prints the banner of the default mode
    and the script name, the default launcher raises at its guard, and the
    system mode is never reached. *)
Theorem selfTest_stops_without_fork
    (h : Host) (o : oracle) (tr : list event) (prog fileName : string)
    (more : list string) :
  argv h = prog :: fileName :: more ->
  is_win h = false ->
  os_hasattr h "fork" = false ->
  selfTest h o (imported h tr)
  = (imported h (tr ++ [Print "default mode..."; Print fileName]),
     Raised (AssertionError None)).
Proof.
  intros A W F. unfold selfTest, getitem. py_unfold.
  rewrite A. cbn [nth_error]. rewrite W. py_unfold. rewrite F.
  py_trace. reflexivity.
Qed.

Lemma selfTest_stops_without_fork_witness :
  (argv wasi = "launcher.py" :: "script.py" :: []
   /\ is_win wasi = false /\ os_hasattr wasi "fork" = false)
  /\ selfTest wasi (answering 0) (imported wasi [])
     = (imported wasi [Print "default mode..."; Print "script.py"],
        Raised (AssertionError None)).
Proof.
  split; [repeat split|].
  exact (selfTest_stops_without_fork wasi (answering 0) [] "launcher.py"
           "script.py" [] eq_refl eq_refl eq_refl).
Defined.

(** X15 - on a host that is not Windows and has [os.fork] and
    [os.system], the self test in the parent process runs the default mode
    and then the system mode, and skips the Windows mode: it forks, then
    hands [pypath + ' ' + line] to the shell, where [line] is what the
    normalizer returns for the script name; a failure of the shell call is
    raised. *)
Theorem selfTest_in_the_parent
    (h : Host) (o : oracle) (tr : list event) (prog fileName : string)
    (more : list string) (pid : Z) :
  argv h = prog :: fileName :: more ->
  is_win h = false ->
  os_hasattr h "fork" = true ->
  os_hasattr h "system" = true ->
  o (os_calls tr ++ [os_fork])%list = Returned pid ->
  pid <> 0%Z ->
  exists line,
    fixWindowsPath h fileName = Ok line
    /\ selfTest h o (imported h tr)
       = (imported h
            (tr ++ [Print "default mode..."; Print fileName; Os os_fork;
                    Print "system mode..."; Print fileName;
                    Os (os_system (executable h ++ " " ++ line))]),
          match o (os_calls tr
                   ++ [os_fork; os_system (executable h ++ " " ++ line)])%list
          with
          | Returned _ => Done tt
          | Failed errno => Raised (OSError errno)
          end).
Proof.
  intros A W F S C P.
  destruct (fixWindowsPath_returns h fileName) as [line E].
  exists line. split; [exact E|].
  apply Z.eqb_neq in P.
  unfold selfTest, getitem. py_unfold.
  rewrite A. cbn [nth_error]. rewrite W. py_unfold. rewrite F.
  py_trace. rewrite C, P. py_unfold. rewrite E, S. clear C.
  py_trace. destruct (o _); py_trace; rewrite ?W; reflexivity.
Qed.

Lemma selfTest_in_the_parent_witness :
  (argv linux = "launcher.py" :: "script.py" :: []
   /\ is_win linux = false /\ os_hasattr linux "fork" = true
   /\ os_hasattr linux "system" = true
   /\ answering 4242 (os_calls [] ++ [os_fork])%list = Returned 4242%Z
   /\ 4242%Z <> 0%Z)
  /\ exists line,
       fixWindowsPath linux "script.py" = Ok line
       /\ selfTest linux (answering 4242) (imported linux [])
          = (imported linux
               [Print "default mode..."; Print "script.py"; Os os_fork;
                Print "system mode..."; Print "script.py";
                Os (os_system ("/usr/bin/python3" ++ " " ++ line))],
             Done tt).
Proof.
  assert (P : 4242%Z <> 0%Z) by discriminate.
  split; [repeat split; exact P|].
  exact (selfTest_in_the_parent linux (answering 4242) [] "launcher.py"
           "script.py" [] 4242 eq_refl eq_refl eq_refl eq_refl eq_refl P).
Defined.

(** ** Errors of a call *)

(** X17 - the exceptions a call can end with: never [IndexError] (the
    normalizer cannot fail); [TypeError] only for the abstract [LaunchMode];
    an [AssertionError] with a message only from [TopLevel], with the
    message [Mode not yet implemented.]; one without a message only from the
    guards of [Fork], [Start], [StartArgs] and the quiet launcher over
    [Fork]; [TopLevel] and the abstract class never fail in the operating
    system. *)
Theorem launch_raises_only_these
    (h : Host) (o : oracle) (tr : list event) (c : cls)
    (label command : string) (e : exn) :
  snd (launch c label command h o (imported h tr)) = Raised e ->
  match e with
  | IndexError => False
  | TypeError => c = LaunchMode
  | AssertionError (Some msg) =>
      c = TopLevel /\ msg = "Mode not yet implemented."
  | AssertionError None =>
      (c = Fork /\ os_hasattr h "fork" = false)
      \/ (c = QuietPortableLauncher /\ is_win h = false
          /\ os_hasattr h "fork" = false)
      \/ ((c = Start \/ c = StartArgs) /\ is_win h = false)
  | AttributeError _ | OSError _ => c <> TopLevel /\ c <> LaunchMode
  end.
Proof.
  destruct c; py_run; intros R; inversion R; subst; clear R;
    try (split; discriminate); auto 6.
Qed.

Lemma launch_raises_only_these_witness :
  snd (launch TopLevel "run" "a.py" linux (answering 0) (imported linux []))
  = Raised (AssertionError (Some "Mode not yet implemented."))
  /\ TopLevel = TopLevel
  /\ "Mode not yet implemented." = "Mode not yet implemented.".
Proof.
  split; [reflexivity|].
  exact (launch_raises_only_these linux (answering 0) [] TopLevel "run" "a.py"
           (AssertionError (Some "Mode not yet implemented.")) eq_refl).
Defined.

